(** * Sdc::Options (opensubdiv/sdc/options.h)

    A shallow embedding of the [Options] class of OpenSubdiv's Sdc layer:
    four unscoped enumerations, a default constructor, one getter and one
    setter per option, and four [unsigned int] bit-field members of widths
    2, 3, 2 and 2.

    Conventions of the embedding:
    - a value of an unscoped C++ enumeration type is its underlying integer,
      a [Z]; the declared enumerators are the constructors of an inductive
      type, and their integer values are computed from the enumerator list
      the way the language assigns them;
    - a bit-field member of width [w] holds a [Z] in [0, 2^w); converting an
      integer to it keeps the value modulo [2^w];
    - a member function is a state transformer on the object it is called on;
    - objects live in a store indexed by locations, so that a copy is a
      second object. *)

From Stdlib Require Import ZArith Lia.
From stdpp Require Import base decidable option list gmap.

Local Open Scope Z_scope.

(** ** Enumerations *)

(** An enumerator list as written in an enum-specifier: every enumerator
    comes with an optional initialiser ([NAME = constant] or just [NAME]). *)
Class CEnum (E : Type) `{EqDecision E} := {
  enumerator_list : list (E * option Z)
}.

(** The value of each enumerator: its initialiser when it has one, else one
    more than the previous enumerator; [next] is what an enumerator without
    initialiser gets at this position (zero at the head of the list). *)
Fixpoint enumerator_values {E : Type} (next : Z) (d : list (E * option Z))
  : list (E * Z) :=
  match d with
  | [] => []
  | (e, init) :: d' =>
      let v := default next init in
      (e, v) :: enumerator_values (v + 1) d'
  end.

(** First binding of [e] in an association list. *)
Fixpoint assoc {E : Type} `{EqDecision E} (e : E) (l : list (E * Z))
  : option Z :=
  match l with
  | [] => None
  | (e', v) :: l' => if decide (e' = e) then Some v else assoc e l'
  end.

(** Position of [e] in a list of enumerators, counted from zero. *)
Fixpoint position {E : Type} `{EqDecision E} (e : E) (l : list E) : nat :=
  match l with
  | [] => O
  | e' :: l' => if decide (e' = e) then O else S (position e l')
  end.

(** Integer value of a declared enumerator (the integral conversion of an
    unscoped enumeration). *)
Definition enum_to_Z {E : Type} `{CEnum E} (e : E) : Z :=
  default 0 (assoc e (enumerator_values 0 enumerator_list)).

(** Ordinal position of an enumerator in its declaration. *)
Definition ordinal {E : Type} `{CEnum E} (e : E) : nat :=
  position e (enumerator_list.*1).

(** The declared enumerators, and the integers that are the value of one. *)
Definition enumerators {E : Type} `{CEnum E} : list E := enumerator_list.*1.

Definition enum_domain {E : Type} `{CEnum E} : list Z :=
  (enumerator_values 0 enumerator_list).*2.

(** The enumerator, if any, whose value is the integer [z]. *)
Definition enum_of_Z {E : Type} `{CEnum E} (z : Z) : option E :=
  fst <$> List.find (λ p, bool_decide (p.2 = z))
                    (enumerator_values 0 enumerator_list).

(** ** Bit-fields *)

(** Conversion of an integer to an [unsigned int] bit-field of [w] bits. *)
Definition bitfield (w : Z) (v : Z) : Z := v mod 2 ^ w.

Module Options.

Inductive VtxBoundaryInterpolation : Set :=
| VTX_BOUNDARY_NONE
| VTX_BOUNDARY_EDGE_ONLY
| VTX_BOUNDARY_EDGE_AND_CORNER.

Inductive FVarLinearInterpolation : Set :=
| FVAR_LINEAR_NONE
| FVAR_LINEAR_CORNERS_ONLY
| FVAR_LINEAR_CORNERS_PLUS1
| FVAR_LINEAR_CORNERS_PLUS2
| FVAR_LINEAR_BOUNDARIES
| FVAR_LINEAR_ALL.

Inductive CreasingMethod : Set :=
| CREASE_UNIFORM
| CREASE_CHAIKIN.

Inductive TriangleSubdivision : Set :=
| TRI_SUB_CATMARK
| TRI_SUB_SMOOTH.

#[global] Instance VtxBoundaryInterpolation_eq_dec :
  EqDecision VtxBoundaryInterpolation.
Proof. solve_decision. Defined.

#[global] Instance FVarLinearInterpolation_eq_dec :
  EqDecision FVarLinearInterpolation.
Proof. solve_decision. Defined.

#[global] Instance CreasingMethod_eq_dec : EqDecision CreasingMethod.
Proof. solve_decision. Defined.

#[global] Instance TriangleSubdivision_eq_dec : EqDecision TriangleSubdivision.
Proof. solve_decision. Defined.

(** The four enum-specifiers, enumerator by enumerator. *)
#[global] Instance VtxBoundaryInterpolation_enum :
  CEnum VtxBoundaryInterpolation := {|
  enumerator_list :=
    [ (VTX_BOUNDARY_NONE, Some 0);
      (VTX_BOUNDARY_EDGE_ONLY, None);
      (VTX_BOUNDARY_EDGE_AND_CORNER, None) ]
|}.

#[global] Instance FVarLinearInterpolation_enum :
  CEnum FVarLinearInterpolation := {|
  enumerator_list :=
    [ (FVAR_LINEAR_NONE, Some 0);
      (FVAR_LINEAR_CORNERS_ONLY, None);
      (FVAR_LINEAR_CORNERS_PLUS1, None);
      (FVAR_LINEAR_CORNERS_PLUS2, None);
      (FVAR_LINEAR_BOUNDARIES, None);
      (FVAR_LINEAR_ALL, None) ]
|}.

#[global] Instance CreasingMethod_enum : CEnum CreasingMethod := {|
  enumerator_list := [ (CREASE_UNIFORM, Some 0); (CREASE_CHAIKIN, None) ]
|}.

#[global] Instance TriangleSubdivision_enum : CEnum TriangleSubdivision := {|
  enumerator_list := [ (TRI_SUB_CATMARK, Some 0); (TRI_SUB_SMOOTH, None) ]
|}.

(** The data members: four [unsigned int] bit-fields. *)
Record t : Set := mk {
  _vtxBoundInterp : Z;
  _fvarLinInterp : Z;
  _creasingMethod : Z;
  _triangleSub : Z
}.

(** Declared widths of the bit-fields. *)
Definition _vtxBoundInterp_width : Z := 2.
Definition _fvarLinInterp_width : Z := 3.
Definition _creasingMethod_width : Z := 2.
Definition _triangleSub_width : Z := 2.

(** What an object of the class can hold: every member within its width. *)
Definition representable (o : t) : Prop :=
  0 <= _vtxBoundInterp o < 2 ^ _vtxBoundInterp_width /\
  0 <= _fvarLinInterp o < 2 ^ _fvarLinInterp_width /\
  0 <= _creasingMethod o < 2 ^ _creasingMethod_width /\
  0 <= _triangleSub o < 2 ^ _triangleSub_width.

(** Member functions: called on an object, they return a result and leave
    the object in a (possibly new) state. *)
Definition method (A : Type) : Type := t -> A * t.

Definition ret {A : Type} (a : A) : method A := fun this => (a, this).

Definition bind {A B : Type} (m : method A) (k : A -> method B) : method B :=
  fun this => let (a, this') := m this in k a this'.

Definition result {A : Type} (m : method A) (this : t) : A := fst (m this).
Definition after {A : Type} (m : method A) (this : t) : t := snd (m this).

(** [Options()]: the member initialisers, each converting an enumerator to
    its bit-field. *)
Definition Options : t := {|
  _vtxBoundInterp := bitfield _vtxBoundInterp_width (enum_to_Z VTX_BOUNDARY_NONE);
  _fvarLinInterp := bitfield _fvarLinInterp_width (enum_to_Z FVAR_LINEAR_ALL);
  _creasingMethod := bitfield _creasingMethod_width (enum_to_Z CREASE_UNIFORM);
  _triangleSub := bitfield _triangleSub_width (enum_to_Z TRI_SUB_CATMARK)
|}.

(** The getters are [const]: they cast the member to the enumeration type,
    which keeps its integer value. *)
Definition GetVtxBoundaryInterpolation : method Z :=
  fun this => (_vtxBoundInterp this, this).

Definition GetFVarLinearInterpolation : method Z :=
  fun this => (_fvarLinInterp this, this).

Definition GetCreasingMethod : method Z :=
  fun this => (_creasingMethod this, this).

Definition GetTriangleSubdivision : method Z :=
  fun this => (_triangleSub this, this).

(** The setters assign their argument to the member. *)
Definition SetVtxBoundaryInterpolation (b : Z) : method unit :=
  fun this =>
    (tt, {| _vtxBoundInterp := bitfield _vtxBoundInterp_width b;
            _fvarLinInterp := _fvarLinInterp this;
            _creasingMethod := _creasingMethod this;
            _triangleSub := _triangleSub this |}).

Definition SetFVarLinearInterpolation (b : Z) : method unit :=
  fun this =>
    (tt, {| _vtxBoundInterp := _vtxBoundInterp this;
            _fvarLinInterp := bitfield _fvarLinInterp_width b;
            _creasingMethod := _creasingMethod this;
            _triangleSub := _triangleSub this |}).

Definition SetCreasingMethod (c : Z) : method unit :=
  fun this =>
    (tt, {| _vtxBoundInterp := _vtxBoundInterp this;
            _fvarLinInterp := _fvarLinInterp this;
            _creasingMethod := bitfield _creasingMethod_width c;
            _triangleSub := _triangleSub this |}).

Definition SetTriangleSubdivision (t0 : Z) : method unit :=
  fun this =>
    (tt, {| _vtxBoundInterp := _vtxBoundInterp this;
            _fvarLinInterp := _fvarLinInterp this;
            _creasingMethod := _creasingMethod this;
            _triangleSub := bitfield _triangleSub_width t0 |}).

End Options.

Declare Scope method_scope.
Notation "m >>= k" := (Options.bind m k)
  (at level 58, left associativity) : method_scope.
Notation "m1 >> m2" := (Options.bind m1 (fun _ => m2))
  (at level 58, left associativity) : method_scope.
Delimit Scope method_scope with method.

Local Open Scope method_scope.

(** ** Sequences of setter calls *)

(** One call of a setter, with the integer value of its argument. *)
Inductive setter_call : Set :=
| CallSetVtxBoundaryInterpolation (b : Z)
| CallSetFVarLinearInterpolation (b : Z)
| CallSetCreasingMethod (c : Z)
| CallSetTriangleSubdivision (t0 : Z).

Definition call (c : setter_call) : Options.method unit :=
  match c with
  | CallSetVtxBoundaryInterpolation b => Options.SetVtxBoundaryInterpolation b
  | CallSetFVarLinearInterpolation b => Options.SetFVarLinearInterpolation b
  | CallSetCreasingMethod c => Options.SetCreasingMethod c
  | CallSetTriangleSubdivision t0 => Options.SetTriangleSubdivision t0
  end.

Fixpoint calls (cs : list setter_call) : Options.method unit :=
  match cs with
  | [] => Options.ret tt
  | c :: cs' => call c >> calls cs'
  end.

(** The argument of the call is a declared enumerator of the parameter's
    enumeration type. *)
Definition declared_argument (c : setter_call) : Prop :=
  match c with
  | CallSetVtxBoundaryInterpolation b =>
      b ∈ enum_domain (E := Options.VtxBoundaryInterpolation)
  | CallSetFVarLinearInterpolation b =>
      b ∈ enum_domain (E := Options.FVarLinearInterpolation)
  | CallSetCreasingMethod c =>
      c ∈ enum_domain (E := Options.CreasingMethod)
  | CallSetTriangleSubdivision t0 =>
      t0 ∈ enum_domain (E := Options.TriangleSubdivision)
  end.

(** Every member holds the value of a declared enumerator of its option. *)
Definition in_domain (o : Options.t) : Prop :=
  Options._vtxBoundInterp o ∈ enum_domain (E := Options.VtxBoundaryInterpolation) /\
  Options._fvarLinInterp o ∈ enum_domain (E := Options.FVarLinearInterpolation) /\
  Options._creasingMethod o ∈ enum_domain (E := Options.CreasingMethod) /\
  Options._triangleSub o ∈ enum_domain (E := Options.TriangleSubdivision).

(** The argument a call passes to a given setter, when it is a call of that
    setter. *)
Definition vtx_argument (c : setter_call) : option Z :=
  match c with CallSetVtxBoundaryInterpolation b => Some b | _ => None end.

Definition fvar_argument (c : setter_call) : option Z :=
  match c with CallSetFVarLinearInterpolation b => Some b | _ => None end.

Definition creasing_argument (c : setter_call) : option Z :=
  match c with CallSetCreasingMethod c' => Some c' | _ => None end.

Definition triangle_argument (c : setter_call) : option Z :=
  match c with CallSetTriangleSubdivision t0 => Some t0 | _ => None end.

(** The argument of the last call of a setter in a sequence of calls, if the
    sequence calls that setter at all. *)
Definition last_argument (arg : setter_call -> option Z) (cs : list setter_call)
  : option Z :=
  last (omap arg cs).

(** What a member holds after a sequence of calls whose last argument for it
    is [a]: the converted argument, or what it held when it was never set. *)
Definition member_after (w : Z) (a : option Z) (before : Z) : Z :=
  match a with
  | Some v => bitfield w v
  | None => before
  end.

(** ** Objects *)

(** Objects of the class live in a store; a location names one object. *)
Abbreviation store := (gmap positive Options.t).

(** The implicitly declared copy constructor: member by member. *)
Definition Options_copy (other : Options.t) : Options.t :=
  {| Options._vtxBoundInterp := Options._vtxBoundInterp other;
     Options._fvarLinInterp := Options._fvarLinInterp other;
     Options._creasingMethod := Options._creasingMethod other;
     Options._triangleSub := Options._triangleSub other |}.

(** [Options a;] a new object, default-constructed. *)
Definition new_default (σ : store) : positive * store :=
  let l := fresh (dom σ) in (l, <[l := Options.Options]> σ).

(** [Options b(a);] a new object, copy-constructed from the one at [src]. *)
Definition new_copy (src : positive) (σ : store) : option (positive * store) :=
  match σ !! src with
  | Some o => let l := fresh (dom σ) in Some (l, <[l := Options_copy o]> σ)
  | None => None
  end.

(** [a.m(...)]: a member function called on the object at [l]. *)
Definition invoke {A : Type} (l : positive) (m : Options.method A) (σ : store)
  : option (A * store) :=
  match σ !! l with
  | Some o => let (a, o') := m o in Some (a, <[l := o']> σ)
  | None => None
  end.

(** Setter calls on the object at [l], one after the other. *)
Fixpoint invoke_calls (l : positive) (cs : list setter_call) (σ : store)
  : option store :=
  match cs with
  | [] => Some σ
  | c :: cs' =>
      match invoke l (call c) σ with
      | Some (_, σ') => invoke_calls l cs' σ'
      | None => None
      end
  end.

(** * Properties *)

(** ** Enumerator values *)

Section EnumeratorValues.
Context {E : Type} `{EqDecision E}.

(** When no enumerator of [d] has an initialiser, the values count up from
    [next] in declaration order. *)
Lemma assoc_enumerator_values_implicit (d : list (E * option Z)) :
  Forall (fun p => p.2 = None) d ->
  forall (next : Z) (e : E),
    e ∈ d.*1 ->
    assoc e (enumerator_values next d) = Some (next + Z.of_nat (position e d.*1)).
Proof.
  induction 1 as [|[e0 init] d Hinit _ IH]; intros next e He.
  - inversion He.
  - simpl in Hinit. subst init. rewrite fmap_cons. cbn -[fmap Z.add Z.of_nat].
    destruct (decide (e0 = e)) as [->|Hne].
    + f_equal. lia.
    + apply elem_of_cons in He as [Heq|He]; [simpl in Heq; congruence|].
      rewrite (IH _ _ He). f_equal. lia.
Qed.

(** The shape of the enum-specifiers of this class: the first enumerator is
    initialised to zero and the others have no initialiser. *)
Definition zero_based (d : list (E * option Z)) : Prop :=
  match d with
  | [] => True
  | (_, init) :: d' => init = Some 0 /\ Forall (fun p => p.2 = None) d'
  end.

Lemma assoc_enumerator_values_zero_based (d : list (E * option Z)) (e : E) :
  zero_based d ->
  e ∈ d.*1 ->
  assoc e (enumerator_values 0 d) = Some (Z.of_nat (position e d.*1)).
Proof.
  destruct d as [|[e0 init] d]; intros Hd He.
  - inversion He.
  - destruct Hd as [-> Hd]. rewrite fmap_cons. cbn -[fmap Z.add Z.of_nat].
    destruct (decide (e0 = e)) as [->|Hne]; [reflexivity|].
    apply elem_of_cons in He as [Heq|He]; [simpl in Heq; congruence|].
    rewrite (assoc_enumerator_values_implicit d Hd _ _ He). f_equal. lia.
Qed.

End EnumeratorValues.

Lemma enum_to_Z_ordinal {E : Type} `{CEnum E} (e : E) :
  zero_based enumerator_list ->
  e ∈ enumerators ->
  enum_to_Z e = Z.of_nat (ordinal e).
Proof.
  intros Hd He. unfold enum_to_Z, ordinal.
  by rewrite (assoc_enumerator_values_zero_based _ _ Hd He).
Qed.

(** Every constructor is listed in its enum-specifier. *)
Lemma VtxBoundaryInterpolation_listed (b : Options.VtxBoundaryInterpolation) :
  b ∈ enumerators.
Proof. destruct b; compute; set_solver. Qed.

Lemma FVarLinearInterpolation_listed (b : Options.FVarLinearInterpolation) :
  b ∈ enumerators.
Proof. destruct b; compute; set_solver. Qed.

Lemma CreasingMethod_listed (c : Options.CreasingMethod) : c ∈ enumerators.
Proof. destruct c; compute; set_solver. Qed.

Lemma TriangleSubdivision_listed (t0 : Options.TriangleSubdivision) :
  t0 ∈ enumerators.
Proof. destruct t0; compute; set_solver. Qed.

(** C9. The integer value of every enumerator of the four enumerations is
    its ordinal position in the declaration: 0, 1, 2 for the vertex boundary
    rules, 0 to 5 for the face-varying rules, 0, 1 for the creasing methods
    and 0, 1 for the triangle subdivision rules. *)
Theorem enumerator_value_is_ordinal :
  (forall b : Options.VtxBoundaryInterpolation,
      enum_to_Z b = Z.of_nat (ordinal b)) /\
  (forall b : Options.FVarLinearInterpolation,
      enum_to_Z b = Z.of_nat (ordinal b)) /\
  (forall c : Options.CreasingMethod, enum_to_Z c = Z.of_nat (ordinal c)) /\
  (forall t0 : Options.TriangleSubdivision,
      enum_to_Z t0 = Z.of_nat (ordinal t0)) /\
  [ enum_to_Z Options.VTX_BOUNDARY_NONE;
    enum_to_Z Options.VTX_BOUNDARY_EDGE_ONLY;
    enum_to_Z Options.VTX_BOUNDARY_EDGE_AND_CORNER ] = [0; 1; 2] /\
  [ enum_to_Z Options.FVAR_LINEAR_NONE;
    enum_to_Z Options.FVAR_LINEAR_CORNERS_ONLY;
    enum_to_Z Options.FVAR_LINEAR_CORNERS_PLUS1;
    enum_to_Z Options.FVAR_LINEAR_CORNERS_PLUS2;
    enum_to_Z Options.FVAR_LINEAR_BOUNDARIES;
    enum_to_Z Options.FVAR_LINEAR_ALL ] = [0; 1; 2; 3; 4; 5] /\
  [ enum_to_Z Options.CREASE_UNIFORM; enum_to_Z Options.CREASE_CHAIKIN ]
  = [0; 1] /\
  [ enum_to_Z Options.TRI_SUB_CATMARK; enum_to_Z Options.TRI_SUB_SMOOTH ]
  = [0; 1].
Proof.
  repeat split.
  - intros b. apply enum_to_Z_ordinal;
      [split; [reflexivity | repeat constructor]
      | apply VtxBoundaryInterpolation_listed].
  - intros b. apply enum_to_Z_ordinal;
      [split; [reflexivity | repeat constructor]
      | apply FVarLinearInterpolation_listed].
  - intros c. apply enum_to_Z_ordinal;
      [split; [reflexivity | repeat constructor]
      | apply CreasingMethod_listed].
  - intros t0. apply enum_to_Z_ordinal;
      [split; [reflexivity | repeat constructor]
      | apply TriangleSubdivision_listed].
Qed.

(** ** Bit-field conversion *)

Lemma bitfield_small (w v : Z) : 0 <= v < 2 ^ w -> bitfield w v = v.
Proof. intros Hv. unfold bitfield. by apply Z.mod_small. Qed.

Lemma bitfield_range (w v : Z) : 0 <= w -> 0 <= bitfield w v < 2 ^ w.
Proof.
  intros Hw. unfold bitfield. apply Z.mod_pos_bound. by apply Z.pow_pos_nonneg.
Qed.

(** Every enumerator fits the bit-field that stores it. *)
Lemma VtxBoundaryInterpolation_fits (b : Options.VtxBoundaryInterpolation) :
  bitfield Options._vtxBoundInterp_width (enum_to_Z b) = enum_to_Z b.
Proof. apply bitfield_small. destruct b; vm_compute; intuition discriminate. Qed.

Lemma FVarLinearInterpolation_fits (b : Options.FVarLinearInterpolation) :
  bitfield Options._fvarLinInterp_width (enum_to_Z b) = enum_to_Z b.
Proof. apply bitfield_small. destruct b; vm_compute; intuition discriminate. Qed.

Lemma CreasingMethod_fits (c : Options.CreasingMethod) :
  bitfield Options._creasingMethod_width (enum_to_Z c) = enum_to_Z c.
Proof. apply bitfield_small. destruct c; vm_compute; intuition discriminate. Qed.

Lemma TriangleSubdivision_fits (t0 : Options.TriangleSubdivision) :
  bitfield Options._triangleSub_width (enum_to_Z t0) = enum_to_Z t0.
Proof. apply bitfield_small. destruct t0; vm_compute; intuition discriminate. Qed.

(** ** Construction and accessors *)

(** C1. A default-constructed object reads back VTX_BOUNDARY_NONE,
    FVAR_LINEAR_ALL, CREASE_UNIFORM and TRI_SUB_CATMARK from its four
    getters. *)
Theorem default_constructor_values :
  Options.result Options.GetVtxBoundaryInterpolation Options.Options
  = enum_to_Z Options.VTX_BOUNDARY_NONE /\
  Options.result Options.GetFVarLinearInterpolation Options.Options
  = enum_to_Z Options.FVAR_LINEAR_ALL /\
  Options.result Options.GetCreasingMethod Options.Options
  = enum_to_Z Options.CREASE_UNIFORM /\
  Options.result Options.GetTriangleSubdivision Options.Options
  = enum_to_Z Options.TRI_SUB_CATMARK.
Proof.
  unfold Options.result, Options.Options; simpl.
  rewrite VtxBoundaryInterpolation_fits, FVarLinearInterpolation_fits,
    CreasingMethod_fits, TriangleSubdivision_fits.
  done.
Qed.

(** C8. Each getter returns the value stored in its member and leaves the
    object exactly as it was; as total functions the getters cannot fail. *)
Theorem getters_return_member_and_keep_object (o : Options.t) :
  Options.GetVtxBoundaryInterpolation o = (Options._vtxBoundInterp o, o) /\
  Options.GetFVarLinearInterpolation o = (Options._fvarLinInterp o, o) /\
  Options.GetCreasingMethod o = (Options._creasingMethod o, o) /\
  Options.GetTriangleSubdivision o = (Options._triangleSub o, o).
Proof. repeat split. Qed.

(** C2. Setting an option to any declared enumerator and then reading it
    returns that enumerator, whatever the object held before. *)
Theorem set_then_get_returns_enumerator (o : Options.t) :
  (forall b : Options.VtxBoundaryInterpolation,
      Options.result (Options.SetVtxBoundaryInterpolation (enum_to_Z b)
                      >> Options.GetVtxBoundaryInterpolation) o
      = enum_to_Z b) /\
  (forall b : Options.FVarLinearInterpolation,
      Options.result (Options.SetFVarLinearInterpolation (enum_to_Z b)
                      >> Options.GetFVarLinearInterpolation) o
      = enum_to_Z b) /\
  (forall c : Options.CreasingMethod,
      Options.result (Options.SetCreasingMethod (enum_to_Z c)
                      >> Options.GetCreasingMethod) o
      = enum_to_Z c) /\
  (forall t0 : Options.TriangleSubdivision,
      Options.result (Options.SetTriangleSubdivision (enum_to_Z t0)
                      >> Options.GetTriangleSubdivision) o
      = enum_to_Z t0).
Proof.
  repeat split; intros e; unfold Options.result, Options.bind; cbn [fst snd].
  - apply VtxBoundaryInterpolation_fits.
  - apply FVarLinearInterpolation_fits.
  - apply CreasingMethod_fits.
  - apply TriangleSubdivision_fits.
Qed.

(** C3. A setter called with a declared enumerator leaves the three other
    options as they were: each of the other getters returns what it returned
    before the call. *)
Theorem setter_keeps_other_options (o : Options.t) :
  (forall b : Options.VtxBoundaryInterpolation,
      let o' := Options.after (Options.SetVtxBoundaryInterpolation (enum_to_Z b)) o in
      Options.result Options.GetFVarLinearInterpolation o'
      = Options.result Options.GetFVarLinearInterpolation o /\
      Options.result Options.GetCreasingMethod o'
      = Options.result Options.GetCreasingMethod o /\
      Options.result Options.GetTriangleSubdivision o'
      = Options.result Options.GetTriangleSubdivision o) /\
  (forall b : Options.FVarLinearInterpolation,
      let o' := Options.after (Options.SetFVarLinearInterpolation (enum_to_Z b)) o in
      Options.result Options.GetVtxBoundaryInterpolation o'
      = Options.result Options.GetVtxBoundaryInterpolation o /\
      Options.result Options.GetCreasingMethod o'
      = Options.result Options.GetCreasingMethod o /\
      Options.result Options.GetTriangleSubdivision o'
      = Options.result Options.GetTriangleSubdivision o) /\
  (forall c : Options.CreasingMethod,
      let o' := Options.after (Options.SetCreasingMethod (enum_to_Z c)) o in
      Options.result Options.GetVtxBoundaryInterpolation o'
      = Options.result Options.GetVtxBoundaryInterpolation o /\
      Options.result Options.GetFVarLinearInterpolation o'
      = Options.result Options.GetFVarLinearInterpolation o /\
      Options.result Options.GetTriangleSubdivision o'
      = Options.result Options.GetTriangleSubdivision o) /\
  (forall t0 : Options.TriangleSubdivision,
      let o' := Options.after (Options.SetTriangleSubdivision (enum_to_Z t0)) o in
      Options.result Options.GetVtxBoundaryInterpolation o'
      = Options.result Options.GetVtxBoundaryInterpolation o /\
      Options.result Options.GetFVarLinearInterpolation o'
      = Options.result Options.GetFVarLinearInterpolation o /\
      Options.result Options.GetCreasingMethod o'
      = Options.result Options.GetCreasingMethod o).
Proof. destruct o. repeat split. Qed.

(** ** Values outside the declared enumerators *)

(** The integers that are the value of a declared enumerator. *)
Lemma enum_domain_values :
  enum_domain (E := Options.VtxBoundaryInterpolation) = [0; 1; 2] /\
  enum_domain (E := Options.FVarLinearInterpolation) = [0; 1; 2; 3; 4; 5] /\
  enum_domain (E := Options.CreasingMethod) = [0; 1] /\
  enum_domain (E := Options.TriangleSubdivision) = [0; 1].
Proof. repeat split. Qed.

(** C4, refuted as stated: the integer 5 is the value of no vertex boundary
    enumerator, yet the setter called with it on a default-constructed object
    returns normally and leaves the object as if VTX_BOUNDARY_EDGE_ONLY had
    been set; the getter then reads VTX_BOUNDARY_EDGE_ONLY. *)
Lemma setter_wraps_out_of_domain_value :
  (5 ∉ enum_domain (E := Options.VtxBoundaryInterpolation)) /\
  Options.SetVtxBoundaryInterpolation 5 Options.Options
  = Options.SetVtxBoundaryInterpolation
      (enum_to_Z Options.VTX_BOUNDARY_EDGE_ONLY) Options.Options /\
  Options.result (Options.SetVtxBoundaryInterpolation 5
                  >> Options.GetVtxBoundaryInterpolation) Options.Options
  = enum_to_Z Options.VTX_BOUNDARY_EDGE_ONLY /\
  enum_of_Z (Options.result (Options.SetVtxBoundaryInterpolation 5
                             >> Options.GetVtxBoundaryInterpolation)
                            Options.Options)
  = Some Options.VTX_BOUNDARY_EDGE_ONLY.
Proof.
  split; [|repeat split].
  destruct enum_domain_values as [-> _].
  rewrite !elem_of_cons, elem_of_nil. lia.
Qed.

(** C4, as the code has it: a setter accepts every integer value of its
    argument, always returns, and the getter then reads that value modulo
    two to the width of the member (2, 3, 2 and 2 bits). *)
Theorem setter_stores_value_modulo_width (o : Options.t) (v : Z) :
  (exists o', Options.SetVtxBoundaryInterpolation v o = (tt, o') /\
              Options.result Options.GetVtxBoundaryInterpolation o' = v mod 4) /\
  (exists o', Options.SetFVarLinearInterpolation v o = (tt, o') /\
              Options.result Options.GetFVarLinearInterpolation o' = v mod 8) /\
  (exists o', Options.SetCreasingMethod v o = (tt, o') /\
              Options.result Options.GetCreasingMethod o' = v mod 4) /\
  (exists o', Options.SetTriangleSubdivision v o = (tt, o') /\
              Options.result Options.GetTriangleSubdivision o' = v mod 4).
Proof. repeat split; eexists; split; reflexivity. Qed.

(** ** Reachable objects *)

(** A declared enumerator value is stored unchanged in the member. *)
Lemma declared_value_fits :
  (forall v, v ∈ enum_domain (E := Options.VtxBoundaryInterpolation) ->
             bitfield Options._vtxBoundInterp_width v = v) /\
  (forall v, v ∈ enum_domain (E := Options.FVarLinearInterpolation) ->
             bitfield Options._fvarLinInterp_width v = v) /\
  (forall v, v ∈ enum_domain (E := Options.CreasingMethod) ->
             bitfield Options._creasingMethod_width v = v) /\
  (forall v, v ∈ enum_domain (E := Options.TriangleSubdivision) ->
             bitfield Options._triangleSub_width v = v).
Proof.
  destruct enum_domain_values as (-> & -> & -> & ->).
  repeat split; intros v Hv; apply bitfield_small;
    rewrite !elem_of_cons, elem_of_nil in Hv;
    change (2 ^ Options._vtxBoundInterp_width) with 4;
    change (2 ^ Options._fvarLinInterp_width) with 8;
    change (2 ^ Options._creasingMethod_width) with 4;
    change (2 ^ Options._triangleSub_width) with 4; lia.
Qed.

Lemma default_in_domain : in_domain Options.Options.
Proof.
  unfold in_domain. destruct enum_domain_values as (-> & -> & -> & ->).
  change (Options._vtxBoundInterp Options.Options) with 0.
  change (Options._fvarLinInterp Options.Options) with 5.
  change (Options._creasingMethod Options.Options) with 0.
  change (Options._triangleSub Options.Options) with 0.
  rewrite !elem_of_cons. tauto.
Qed.

Lemma call_in_domain (c : setter_call) (o : Options.t) :
  declared_argument c -> in_domain o -> in_domain (Options.after (call c) o).
Proof.
  destruct declared_value_fits as (Hvtx & Hfvar & Hcrease & Htri).
  intros Hc (Ho1 & Ho2 & Ho3 & Ho4).
  destruct c as [b|b|c|t0]; simpl in Hc; unfold in_domain; simpl;
    rewrite ?(Hvtx _ Hc), ?(Hfvar _ Hc), ?(Hcrease _ Hc), ?(Htri _ Hc); tauto.
Qed.

Lemma after_calls_cons (c : setter_call) (cs : list setter_call) (o : Options.t) :
  Options.after (calls (c :: cs)) o
  = Options.after (calls cs) (Options.after (call c) o).
Proof.
  unfold Options.after. simpl. unfold Options.bind.
  by destruct (call c o) as [[] o'].
Qed.

Lemma calls_in_domain (cs : list setter_call) :
  Forall declared_argument cs ->
  forall o, in_domain o -> in_domain (Options.after (calls cs) o).
Proof.
  induction 1 as [|c cs Hc _ IH]; intros o Ho.
  - exact Ho.
  - rewrite after_calls_cons. by apply IH, call_in_domain.
Qed.

Lemma in_domain_ranges (o : Options.t) :
  in_domain o ->
  0 <= Options._vtxBoundInterp o <= 2 /\
  0 <= Options._fvarLinInterp o <= 5 /\
  0 <= Options._creasingMethod o <= 1 /\
  0 <= Options._triangleSub o <= 1.
Proof.
  unfold in_domain. destruct enum_domain_values as (-> & -> & -> & ->).
  rewrite !elem_of_cons, !elem_of_nil. lia.
Qed.

(** C5. After default construction and any sequence of setter calls whose
    arguments are declared enumerators, every member holds the value of a
    declared enumerator of its option: the vertex boundary rule is in 0..2,
    the face-varying rule in 0..5, the creasing method and the triangle
    subdivision rule in 0..1. *)
Theorem reachable_options_in_domain (cs : list setter_call) :
  Forall declared_argument cs ->
  in_domain (Options.after (calls cs) Options.Options) /\
  0 <= Options.result Options.GetVtxBoundaryInterpolation
         (Options.after (calls cs) Options.Options) <= 2 /\
  0 <= Options.result Options.GetFVarLinearInterpolation
         (Options.after (calls cs) Options.Options) <= 5 /\
  0 <= Options.result Options.GetCreasingMethod
         (Options.after (calls cs) Options.Options) <= 1 /\
  0 <= Options.result Options.GetTriangleSubdivision
         (Options.after (calls cs) Options.Options) <= 1.
Proof.
  intros Hcs.
  pose proof (calls_in_domain cs Hcs _ default_in_domain) as Hdom.
  split; [exact Hdom|]. by apply in_domain_ranges.
Qed.

Lemma reachable_options_in_domain_witness :
  Forall declared_argument
    [ CallSetVtxBoundaryInterpolation 2; CallSetFVarLinearInterpolation 1;
      CallSetCreasingMethod 1; CallSetTriangleSubdivision 1;
      CallSetVtxBoundaryInterpolation 1 ] /\
  0 <= Options.result Options.GetFVarLinearInterpolation
         (Options.after
            (calls [ CallSetVtxBoundaryInterpolation 2;
                     CallSetFVarLinearInterpolation 1;
                     CallSetCreasingMethod 1; CallSetTriangleSubdivision 1;
                     CallSetVtxBoundaryInterpolation 1 ])
            Options.Options) <= 5.
Proof.
  assert (Hcs : Forall declared_argument
    [ CallSetVtxBoundaryInterpolation 2; CallSetFVarLinearInterpolation 1;
      CallSetCreasingMethod 1; CallSetTriangleSubdivision 1;
      CallSetVtxBoundaryInterpolation 1 ]).
  { repeat constructor. }
  split; [exact Hcs|].
  exact (proj1 (proj2 (proj2 (reachable_options_in_domain _ Hcs)))).
Defined.

(** ** Copies *)

Lemma Options_copy_eq (o : Options.t) : Options_copy o = o.
Proof. by destruct o. Qed.

(** A call on the object at [l] rewrites the store at [l] only. *)
Lemma invoke_calls_spec (l : positive) (cs : list setter_call) :
  forall (σ : store) (o : Options.t),
    σ !! l = Some o ->
    invoke_calls l cs σ = Some (<[l := Options.after (calls cs) o]> σ).
Proof.
  induction cs as [|c cs IH]; intros σ o Hl.
  - simpl. f_equal. symmetry. by apply insert_id.
  - rewrite after_calls_cons. unfold Options.after at 2.
    cbn [invoke_calls]. unfold invoke. rewrite Hl.
    destruct (call c o) as [[] o']. cbn [snd].
    rewrite (IH _ o') by apply lookup_insert_eq.
    by rewrite insert_insert_eq.
Qed.

(** C7. Copy-constructing an object gives a second object with the same
    member values, and any sequence of setter calls on the copy, whatever
    their arguments, succeeds and leaves the original holding what it held:
    its four getters return the same values as before. *)
Theorem copy_then_set_keeps_original
    (σ : store) (src : positive) (o : Options.t) (cs : list setter_call) :
  σ !! src = Some o ->
  exists (dst : positive) (σ1 σ2 : store),
    new_copy src σ = Some (dst, σ1) /\
    dst <> src /\
    σ1 !! dst = Some o /\
    invoke_calls dst cs σ1 = Some σ2 /\
    σ2 !! dst = Some (Options.after (calls cs) o) /\
    σ2 !! src = Some o /\
    fst <$> invoke src Options.GetVtxBoundaryInterpolation σ2
    = fst <$> invoke src Options.GetVtxBoundaryInterpolation σ /\
    fst <$> invoke src Options.GetFVarLinearInterpolation σ2
    = fst <$> invoke src Options.GetFVarLinearInterpolation σ /\
    fst <$> invoke src Options.GetCreasingMethod σ2
    = fst <$> invoke src Options.GetCreasingMethod σ /\
    fst <$> invoke src Options.GetTriangleSubdivision σ2
    = fst <$> invoke src Options.GetTriangleSubdivision σ.
Proof.
  intros Hsrc.
  set (dst := fresh (dom σ)).
  assert (Hne : dst <> src).
  { intros Heq. apply (is_fresh (dom σ)). fold dst. rewrite Heq.
    apply elem_of_dom. eauto. }
  exists dst, (<[dst := o]> σ),
    (<[dst := Options.after (calls cs) o]> (<[dst := o]> σ)).
  split; [unfold new_copy; by rewrite Hsrc, Options_copy_eq|].
  split; [exact Hne|].
  split; [apply lookup_insert_eq|].
  split; [apply invoke_calls_spec, lookup_insert_eq|].
  split; [apply lookup_insert_eq|].
  assert (Hkept : <[dst := Options.after (calls cs) o]> (<[dst := o]> σ) !! src
                  = Some o).
  { by rewrite !lookup_insert_ne. }
  split; [exact Hkept|].
  unfold invoke. rewrite Hkept, Hsrc. by repeat split.
Qed.

Lemma copy_then_set_keeps_original_witness :
  ({[ 1%positive := Options.Options ]} : store) !! 1%positive
  = Some Options.Options /\
  exists (dst : positive) (σ1 σ2 : store),
    new_copy 1%positive {[ 1%positive := Options.Options ]} = Some (dst, σ1) /\
    invoke_calls dst
      [ CallSetVtxBoundaryInterpolation 2; CallSetFVarLinearInterpolation 0 ] σ1
    = Some σ2 /\
    σ2 !! 1%positive = Some Options.Options.
Proof.
  assert (H1 : ({[ 1%positive := Options.Options ]} : store) !! 1%positive
               = Some Options.Options) by reflexivity.
  split; [exact H1|].
  destruct (copy_then_set_keeps_original _ _ _
              [ CallSetVtxBoundaryInterpolation 2;
                CallSetFVarLinearInterpolation 0 ] H1)
    as (dst & σ1 & σ2 & Hcopy & _ & _ & Hcalls & _ & Hsrc & _).
  exists dst, σ1, σ2. auto.
Defined.

(** ** Algebra of the accessors *)

(** Objects only ever hold members within their widths. *)
Lemma default_representable : Options.representable Options.Options.
Proof. vm_compute. intuition discriminate. Qed.

Lemma call_representable (c : setter_call) (o : Options.t) :
  Options.representable o -> Options.representable (Options.after (call c) o).
Proof.
  intros (Hv & Hf & Hc & Ht).
  destruct c; unfold Options.representable; simpl; repeat split;
    first [ apply bitfield_range; done | tauto ].
Qed.

(** C10. On every object, writing back what a getter returns changes
    nothing, and two setters of different options give the same object in
    either order, whatever their arguments. *)
Theorem get_set_identity_and_setters_commute (o : Options.t) :
  Options.representable o ->
  (Options.after (Options.GetVtxBoundaryInterpolation
                  >>= Options.SetVtxBoundaryInterpolation) o = o /\
   Options.after (Options.GetFVarLinearInterpolation
                  >>= Options.SetFVarLinearInterpolation) o = o /\
   Options.after (Options.GetCreasingMethod
                  >>= Options.SetCreasingMethod) o = o /\
   Options.after (Options.GetTriangleSubdivision
                  >>= Options.SetTriangleSubdivision) o = o) /\
  (forall x y : Z,
      Options.after (Options.SetVtxBoundaryInterpolation x
                     >> Options.SetFVarLinearInterpolation y) o
      = Options.after (Options.SetFVarLinearInterpolation y
                       >> Options.SetVtxBoundaryInterpolation x) o /\
      Options.after (Options.SetVtxBoundaryInterpolation x
                     >> Options.SetCreasingMethod y) o
      = Options.after (Options.SetCreasingMethod y
                       >> Options.SetVtxBoundaryInterpolation x) o /\
      Options.after (Options.SetVtxBoundaryInterpolation x
                     >> Options.SetTriangleSubdivision y) o
      = Options.after (Options.SetTriangleSubdivision y
                       >> Options.SetVtxBoundaryInterpolation x) o /\
      Options.after (Options.SetFVarLinearInterpolation x
                     >> Options.SetCreasingMethod y) o
      = Options.after (Options.SetCreasingMethod y
                       >> Options.SetFVarLinearInterpolation x) o /\
      Options.after (Options.SetFVarLinearInterpolation x
                     >> Options.SetTriangleSubdivision y) o
      = Options.after (Options.SetTriangleSubdivision y
                       >> Options.SetFVarLinearInterpolation x) o /\
      Options.after (Options.SetCreasingMethod x
                     >> Options.SetTriangleSubdivision y) o
      = Options.after (Options.SetTriangleSubdivision y
                       >> Options.SetCreasingMethod x) o).
Proof.
  destruct o as [v f c t0]. intros (Hv & Hf & Hc & Ht). simpl in *.
  split.
  - unfold Options.after, Options.bind; cbn.
    by rewrite (bitfield_small _ v), (bitfield_small _ f),
      (bitfield_small _ c), (bitfield_small _ t0).
  - intros x y. by repeat split.
Qed.

Lemma get_set_identity_and_setters_commute_witness :
  Options.representable (Options.after (Options.SetFVarLinearInterpolation 3)
                                       Options.Options) /\
  Options.after (Options.GetFVarLinearInterpolation
                 >>= Options.SetFVarLinearInterpolation)
    (Options.after (Options.SetFVarLinearInterpolation 3) Options.Options)
  = Options.after (Options.SetFVarLinearInterpolation 3) Options.Options.
Proof.
  assert (Hrep : Options.representable
                   (Options.after (Options.SetFVarLinearInterpolation 3)
                                  Options.Options)).
  { vm_compute. intuition discriminate. }
  split; [exact Hrep|].
  exact (proj1 (proj2 (proj1 (get_set_identity_and_setters_commute _ Hrep)))).
Defined.

(** ** Arbitrary arguments *)

Lemma calls_representable (cs : list setter_call) :
  forall o, Options.representable o ->
            Options.representable (Options.after (calls cs) o).
Proof.
  induction cs as [|c cs IH]; intros o Ho.
  - exact Ho.
  - rewrite after_calls_cons. by apply IH, call_representable.
Qed.

(** X1. Whatever integers the setters are called with, in whatever order,
    after default construction every getter returns a value within the width
    of its member: 0..3 for the vertex boundary rule, 0..7 for the
    face-varying rule, 0..3 for the creasing method and for the triangle
    subdivision rule. *)
Theorem getters_bounded_by_width (cs : list setter_call) :
  0 <= Options.result Options.GetVtxBoundaryInterpolation
         (Options.after (calls cs) Options.Options) <= 3 /\
  0 <= Options.result Options.GetFVarLinearInterpolation
         (Options.after (calls cs) Options.Options) <= 7 /\
  0 <= Options.result Options.GetCreasingMethod
         (Options.after (calls cs) Options.Options) <= 3 /\
  0 <= Options.result Options.GetTriangleSubdivision
         (Options.after (calls cs) Options.Options) <= 3.
Proof.
  pose proof (calls_representable cs _ default_representable) as Hrep.
  unfold Options.representable in Hrep.
  change (2 ^ Options._vtxBoundInterp_width) with 4 in Hrep.
  change (2 ^ Options._fvarLinInterp_width) with 8 in Hrep.
  change (2 ^ Options._creasingMethod_width) with 4 in Hrep.
  change (2 ^ Options._triangleSub_width) with 4 in Hrep.
  unfold Options.result; simpl. lia.
Qed.

Lemma mod_fixed_iff (v m : Z) : 0 < m -> v mod m = v <-> 0 <= v < m.
Proof.
  intros Hm. split.
  - intros <-. by apply Z.mod_pos_bound.
  - apply Z.mod_small.
Qed.

(** X2. A setter followed by its getter returns the argument unchanged
    exactly when the argument lies within the width of the member: 0..3,
    0..7, 0..3 and 0..3.  Every other argument, negative ones included, is
    read back as a different value. *)
Theorem set_then_get_exact_iff_within_width (o : Options.t) (v : Z) :
  (Options.result (Options.SetVtxBoundaryInterpolation v
                   >> Options.GetVtxBoundaryInterpolation) o = v
   <-> 0 <= v <= 3) /\
  (Options.result (Options.SetFVarLinearInterpolation v
                   >> Options.GetFVarLinearInterpolation) o = v
   <-> 0 <= v <= 7) /\
  (Options.result (Options.SetCreasingMethod v
                   >> Options.GetCreasingMethod) o = v
   <-> 0 <= v <= 3) /\
  (Options.result (Options.SetTriangleSubdivision v
                   >> Options.GetTriangleSubdivision) o = v
   <-> 0 <= v <= 3).
Proof.
  unfold Options.result, Options.bind; cbn [fst snd].
  unfold Options.SetVtxBoundaryInterpolation, Options.SetFVarLinearInterpolation,
    Options.SetCreasingMethod, Options.SetTriangleSubdivision; cbn.
  unfold bitfield.
  change (2 ^ Options._vtxBoundInterp_width) with 4.
  change (2 ^ Options._fvarLinInterp_width) with 8.
  change (2 ^ Options._creasingMethod_width) with 4.
  change (2 ^ Options._triangleSub_width) with 4.
  rewrite !mod_fixed_iff by lia. lia.
Qed.

Lemma mod_4_cases (v : Z) :
  v mod 4 = 0 \/ v mod 4 = 1 \/ v mod 4 = 2 \/ v mod 4 = 3.
Proof. pose proof (Z.mod_pos_bound v 4). lia. Qed.

Lemma mod_8_cases (v : Z) :
  v mod 8 = 0 \/ v mod 8 = 1 \/ v mod 8 = 2 \/ v mod 8 = 3 \/
  v mod 8 = 4 \/ v mod 8 = 5 \/ v mod 8 = 6 \/ v mod 8 = 7.
Proof. pose proof (Z.mod_pos_bound v 8). lia. Qed.

(** X3. A getter can return an integer that is the value of no declared
    enumerator, and the arguments that lead there are known: after the
    setter is called with [v], the value read back is no enumerator exactly
    when [v mod 4 = 3] for the vertex boundary rule, [v mod 8 >= 6] for the
    face-varying rule, and [v mod 4 >= 2] for the creasing method and for
    the triangle subdivision rule. *)
Theorem getter_result_not_enumerator_iff (o : Options.t) (v : Z) :
  (enum_of_Z (E := Options.VtxBoundaryInterpolation)
     (Options.result (Options.SetVtxBoundaryInterpolation v
                      >> Options.GetVtxBoundaryInterpolation) o) = None
   <-> v mod 4 = 3) /\
  (enum_of_Z (E := Options.FVarLinearInterpolation)
     (Options.result (Options.SetFVarLinearInterpolation v
                      >> Options.GetFVarLinearInterpolation) o) = None
   <-> 6 <= v mod 8) /\
  (enum_of_Z (E := Options.CreasingMethod)
     (Options.result (Options.SetCreasingMethod v
                      >> Options.GetCreasingMethod) o) = None
   <-> 2 <= v mod 4) /\
  (enum_of_Z (E := Options.TriangleSubdivision)
     (Options.result (Options.SetTriangleSubdivision v
                      >> Options.GetTriangleSubdivision) o) = None
   <-> 2 <= v mod 4).
Proof.
  unfold Options.result, Options.bind; cbn [fst snd].
  unfold Options.SetVtxBoundaryInterpolation, Options.SetFVarLinearInterpolation,
    Options.SetCreasingMethod, Options.SetTriangleSubdivision; cbn.
  unfold bitfield.
  change (2 ^ Options._vtxBoundInterp_width) with 4.
  change (2 ^ Options._fvarLinInterp_width) with 8.
  change (2 ^ Options._creasingMethod_width) with 4.
  change (2 ^ Options._triangleSub_width) with 4.
  repeat split.
  all: try (destruct (mod_4_cases v) as [H|[H|[H|H]]]; rewrite H;
            first [ discriminate | lia | reflexivity ]).
  all: destruct (mod_8_cases v) as [H|[H|[H|[H|[H|[H|[H|H]]]]]]]; rewrite H;
    first [ discriminate | lia | reflexivity ].
Qed.

(** X8. Decoding what the getter returns after a setter was called with a
    declared enumerator gives back that very enumerator: within each of the
    four enumerations no two enumerators share a value, and none is lost in
    the member. *)
Theorem set_then_get_decodes_to_enumerator (o : Options.t) :
  (forall b : Options.VtxBoundaryInterpolation,
      enum_of_Z (Options.result (Options.SetVtxBoundaryInterpolation (enum_to_Z b)
                                 >> Options.GetVtxBoundaryInterpolation) o)
      = Some b) /\
  (forall b : Options.FVarLinearInterpolation,
      enum_of_Z (Options.result (Options.SetFVarLinearInterpolation (enum_to_Z b)
                                 >> Options.GetFVarLinearInterpolation) o)
      = Some b) /\
  (forall c : Options.CreasingMethod,
      enum_of_Z (Options.result (Options.SetCreasingMethod (enum_to_Z c)
                                 >> Options.GetCreasingMethod) o)
      = Some c) /\
  (forall t0 : Options.TriangleSubdivision,
      enum_of_Z (Options.result (Options.SetTriangleSubdivision (enum_to_Z t0)
                                 >> Options.GetTriangleSubdivision) o)
      = Some t0).
Proof.
  repeat split; intros e; unfold Options.result, Options.bind; cbn [fst snd];
    unfold Options.SetVtxBoundaryInterpolation,
      Options.SetFVarLinearInterpolation, Options.SetCreasingMethod,
      Options.SetTriangleSubdivision; cbn [fst snd Options.GetVtxBoundaryInterpolation
      Options.GetFVarLinearInterpolation Options.GetCreasingMethod
      Options.GetTriangleSubdivision Options._vtxBoundInterp
      Options._fvarLinInterp Options._creasingMethod Options._triangleSub];
    rewrite ?VtxBoundaryInterpolation_fits, ?FVarLinearInterpolation_fits,
      ?CreasingMethod_fits, ?TriangleSubdivision_fits;
    by destruct e.
Qed.

(** ** Sequences of calls *)

Lemma last_argument_cons (arg : setter_call -> option Z)
    (c : setter_call) (cs : list setter_call) :
  last_argument arg (c :: cs)
  = match last_argument arg cs with
    | Some v => Some v
    | None => arg c
    end.
Proof.
  unfold last_argument. cbn [omap list_omap].
  destruct (arg c) as [v|].
  - rewrite last_cons. by destruct (last _).
  - by destruct (last _).
Qed.

Lemma calls_members (cs : list setter_call) (o : Options.t) :
  Options.result Options.GetVtxBoundaryInterpolation
    (Options.after (calls cs) o)
  = member_after Options._vtxBoundInterp_width
      (last_argument vtx_argument cs) (Options._vtxBoundInterp o) /\
  Options.result Options.GetFVarLinearInterpolation
    (Options.after (calls cs) o)
  = member_after Options._fvarLinInterp_width
      (last_argument fvar_argument cs) (Options._fvarLinInterp o) /\
  Options.result Options.GetCreasingMethod
    (Options.after (calls cs) o)
  = member_after Options._creasingMethod_width
      (last_argument creasing_argument cs) (Options._creasingMethod o) /\
  Options.result Options.GetTriangleSubdivision
    (Options.after (calls cs) o)
  = member_after Options._triangleSub_width
      (last_argument triangle_argument cs) (Options._triangleSub o).
Proof.
  revert o. induction cs as [|c cs IH]; intros o.
  - by repeat split.
  - rewrite after_calls_cons, !last_argument_cons.
    destruct (IH (Options.after (call c) o)) as (-> & -> & -> & ->).
    clear IH. repeat split;
      (destruct (last_argument _ cs); [reflexivity|]); by destruct c.
Qed.

(** X4. After any sequence of setter calls, with any arguments, each member
    holds the converted argument of the last call of its own setter, and
    what it held before the sequence when its setter was not called: earlier
    calls of the same setter and all calls of the other setters leave no
    trace. *)
Theorem calls_keep_last_argument (cs : list setter_call) (o : Options.t) :
  Options.result Options.GetVtxBoundaryInterpolation
    (Options.after (calls cs) o)
  = member_after Options._vtxBoundInterp_width
      (last_argument vtx_argument cs) (Options._vtxBoundInterp o) /\
  Options.result Options.GetFVarLinearInterpolation
    (Options.after (calls cs) o)
  = member_after Options._fvarLinInterp_width
      (last_argument fvar_argument cs) (Options._fvarLinInterp o) /\
  Options.result Options.GetCreasingMethod
    (Options.after (calls cs) o)
  = member_after Options._creasingMethod_width
      (last_argument creasing_argument cs) (Options._creasingMethod o) /\
  Options.result Options.GetTriangleSubdivision
    (Options.after (calls cs) o)
  = member_after Options._triangleSub_width
      (last_argument triangle_argument cs) (Options._triangleSub o).
Proof. exact (calls_members cs o). Qed.

(** X5. The four setters together overwrite the whole object: called one
    after the other, they leave the same object whatever it held before.
    Called with the four default enumerators on any object, they leave it
    equal to a default-constructed one. *)
Theorem four_setters_overwrite_object (o1 o2 : Options.t) (a b c d : Z) :
  Options.after (Options.SetVtxBoundaryInterpolation a
                 >> Options.SetFVarLinearInterpolation b
                 >> Options.SetCreasingMethod c
                 >> Options.SetTriangleSubdivision d) o1
  = Options.after (Options.SetVtxBoundaryInterpolation a
                   >> Options.SetFVarLinearInterpolation b
                   >> Options.SetCreasingMethod c
                   >> Options.SetTriangleSubdivision d) o2 /\
  Options.after
    (Options.SetVtxBoundaryInterpolation (enum_to_Z Options.VTX_BOUNDARY_NONE)
     >> Options.SetFVarLinearInterpolation (enum_to_Z Options.FVAR_LINEAR_ALL)
     >> Options.SetCreasingMethod (enum_to_Z Options.CREASE_UNIFORM)
     >> Options.SetTriangleSubdivision (enum_to_Z Options.TRI_SUB_CATMARK)) o1
  = Options.Options.
Proof. destruct o1, o2. split; reflexivity. Qed.

(** The four calls that write the members of [o] back. *)
Lemma after_own_values (o o0 : Options.t) :
  Options.after
    (calls [ CallSetVtxBoundaryInterpolation (Options._vtxBoundInterp o);
             CallSetFVarLinearInterpolation (Options._fvarLinInterp o);
             CallSetCreasingMethod (Options._creasingMethod o);
             CallSetTriangleSubdivision (Options._triangleSub o) ]) o0
  = {| Options._vtxBoundInterp :=
         bitfield Options._vtxBoundInterp_width (Options._vtxBoundInterp o);
       Options._fvarLinInterp :=
         bitfield Options._fvarLinInterp_width (Options._fvarLinInterp o);
       Options._creasingMethod :=
         bitfield Options._creasingMethod_width (Options._creasingMethod o);
       Options._triangleSub :=
         bitfield Options._triangleSub_width (Options._triangleSub o) |}.
Proof. reflexivity. Qed.

(** X6. The objects that default construction followed by setter calls can
    produce are exactly those whose members lie within their widths: every
    one of the 4 * 8 * 4 * 4 member combinations is produced by some sequence
    of calls, and no sequence produces anything else. *)
Theorem representable_iff_reachable (o : Options.t) :
  Options.representable o
  <-> exists cs : list setter_call,
        Options.after (calls cs) Options.Options = o.
Proof.
  split.
  - intros (Hv & Hf & Hc & Ht).
    exists [ CallSetVtxBoundaryInterpolation (Options._vtxBoundInterp o);
             CallSetFVarLinearInterpolation (Options._fvarLinInterp o);
             CallSetCreasingMethod (Options._creasingMethod o);
             CallSetTriangleSubdivision (Options._triangleSub o) ].
    rewrite after_own_values, !bitfield_small by assumption. by destruct o.
  - intros [cs <-]. apply calls_representable, default_representable.
Qed.

(** X7. The objects that default construction followed by setter calls with
    declared enumerators can produce are exactly those whose four members
    each hold the value of a declared enumerator: all 3 * 6 * 2 * 2
    combinations of enumerators are produced, and nothing else. *)
Theorem in_domain_iff_reachable_with_enumerators (o : Options.t) :
  in_domain o
  <-> exists cs : list setter_call,
        Forall declared_argument cs /\
        Options.after (calls cs) Options.Options = o.
Proof.
  split.
  - intros (Hv & Hf & Hc & Ht).
    exists [ CallSetVtxBoundaryInterpolation (Options._vtxBoundInterp o);
             CallSetFVarLinearInterpolation (Options._fvarLinInterp o);
             CallSetCreasingMethod (Options._creasingMethod o);
             CallSetTriangleSubdivision (Options._triangleSub o) ].
    split.
    { constructor; [exact Hv|]. constructor; [exact Hf|].
      constructor; [exact Hc|]. constructor; [exact Ht|]. constructor. }
    destruct declared_value_fits as (Fv & Ff & Fc & Ft).
    rewrite after_own_values, (Fv _ Hv), (Ff _ Hf), (Fc _ Hc), (Ft _ Ht).
    by destruct o.
  - intros (cs & Hcs & <-). by apply calls_in_domain, default_in_domain.
Qed.

Lemma last_argument_replay (arg : setter_call -> option Z)
    (cs : list setter_call) :
  last_argument arg (cs ++ cs) = last_argument arg cs.
Proof.
  unfold last_argument. rewrite omap_app, last_app. by destruct (last _).
Qed.

Lemma Options_eq_members (o1 o2 : Options.t) :
  Options._vtxBoundInterp o1 = Options._vtxBoundInterp o2 ->
  Options._fvarLinInterp o1 = Options._fvarLinInterp o2 ->
  Options._creasingMethod o1 = Options._creasingMethod o2 ->
  Options._triangleSub o1 = Options._triangleSub o2 ->
  o1 = o2.
Proof. destruct o1, o2; simpl; congruence. Qed.

(** X9. Replaying a sequence of setter calls changes nothing: running the
    sequence twice in a row leaves the object that running it once leaves,
    for any arguments and any starting object. *)
Theorem calls_replay_idempotent (cs : list setter_call) (o : Options.t) :
  Options.after (calls (cs ++ cs)) o = Options.after (calls cs) o.
Proof.
  destruct (calls_members (cs ++ cs) o) as (Hv & Hf & Hc & Ht).
  destruct (calls_members cs o) as (Hv' & Hf' & Hc' & Ht').
  rewrite !last_argument_replay in *.
  unfold Options.result in *; simpl in *.
  apply Options_eq_members; congruence.
Qed.

Lemma invoke_calls_other (l l' : positive) (cs : list setter_call)
    (σ : store) (o : Options.t) :
  σ !! l = Some o -> l' <> l ->
  exists σ' : store,
    invoke_calls l cs σ = Some σ' /\
    σ' !! l = Some (Options.after (calls cs) o) /\
    σ' !! l' = σ !! l'.
Proof.
  intros Hl Hne. eexists. split; [by apply invoke_calls_spec|].
  split; [apply lookup_insert_eq|]. by rewrite lookup_insert_ne.
Qed.

(** X10. A copy keeps its values when the original is changed afterwards:
    after copy construction, any sequence of setter calls on the original
    succeeds, changes the original as the calls say, and leaves the copy
    holding what the original held when it was copied. *)
Theorem copy_then_set_original_keeps_copy
    (σ : store) (src : positive) (o : Options.t) (cs : list setter_call) :
  σ !! src = Some o ->
  exists (dst : positive) (σ1 σ2 : store),
    new_copy src σ = Some (dst, σ1) /\
    dst <> src /\
    invoke_calls src cs σ1 = Some σ2 /\
    σ2 !! src = Some (Options.after (calls cs) o) /\
    σ2 !! dst = Some o.
Proof.
  intros Hsrc.
  set (dst := fresh (dom σ)).
  assert (Hne : dst <> src).
  { intros Heq. apply (is_fresh (dom σ)). fold dst. rewrite Heq.
    apply elem_of_dom. eauto. }
  assert (Hsrc1 : <[dst := o]> σ !! src = Some o).
  { by rewrite lookup_insert_ne. }
  destruct (invoke_calls_other src dst cs _ o Hsrc1 Hne)
    as (σ2 & Hcalls & Hsrc2 & Hdst2).
  exists dst, (<[dst := o]> σ), σ2.
  split; [unfold new_copy; by rewrite Hsrc, Options_copy_eq|].
  split; [exact Hne|]. split; [exact Hcalls|]. split; [exact Hsrc2|].
  rewrite Hdst2. apply lookup_insert_eq.
Qed.

Lemma copy_then_set_original_keeps_copy_witness :
  ({[ 1%positive := Options.Options ]} : store) !! 1%positive
  = Some Options.Options /\
  exists (dst : positive) (σ1 σ2 : store),
    new_copy 1%positive {[ 1%positive := Options.Options ]} = Some (dst, σ1) /\
    invoke_calls 1%positive
      [ CallSetCreasingMethod 1; CallSetTriangleSubdivision 1 ] σ1
    = Some σ2 /\
    σ2 !! dst = Some Options.Options.
Proof.
  assert (H1 : ({[ 1%positive := Options.Options ]} : store) !! 1%positive
               = Some Options.Options) by reflexivity.
  split; [exact H1|].
  destruct (copy_then_set_original_keeps_copy _ _ _
              [ CallSetCreasingMethod 1; CallSetTriangleSubdivision 1 ] H1)
    as (dst & σ1 & σ2 & Hcopy & _ & Hcalls & _ & Hdst).
  exists dst, σ1, σ2. auto.
Defined.
